(** * make-admin.py: promoting a user record to the admin role

    A shallow embedding of [src/make-admin.py].  The script reads the
    connection string from the environment, opens a MongoDB client, looks a
    user document up by its lowercased email and, unless the role is already
    ["admin"], issues one [update_one] that sets it.

    The Python code is modelled as a state-and-exception monad over a
    [World] that holds everything the script can observe or change: the
    process environment, the [users] collection, the number of open
    clients, what was printed and the calls made to the database client.
    What the outside decides (which client call raises, what other writers
    do to the collection between the read and the write) is the [Fate]
    component of the world, so every theorem quantifies over it. *)

From Stdlib Require Import ZArith Ascii String List.
From stdpp Require Import base option list gmap fin_maps strings pretty.
Import ListNotations.

Local Open Scope string_scope.
Local Open Scope Z_scope.
Local Open Scope list_scope.

(** ** Python values and strings *)

(** The newline character inside a Python string literal. *)
Definition nl : string := String "010"%char EmptyString.

(** [str.lower] on ASCII text: [A]..[Z] go to [a]..[z], every other
    character is kept.  Python lowercases letters outside ASCII as well;
    strings are byte strings here and bytes above 127 are kept as they
    are, so this is [str.lower] on the strings [is_ascii] accepts, and what
    is said about the lowercase form itself is said of those. *)
Definition lower_ascii (c : ascii) : ascii :=
  let n := nat_of_ascii c in
  if ((65 <=? n)%nat && (n <=? 90)%nat)%bool then ascii_of_nat (n + 32) else c.

Fixpoint lower (s : string) : string :=
  match s with
  | EmptyString => EmptyString
  | String c r => String (lower_ascii c) (lower r)
  end.


(** A field of a document as Python sees it after BSON decoding. *)
Inductive Value : Type :=
  | VStr (s : string)
  | VInt (z : Z)
  | VBool (b : bool)
  | VNull.

#[global] Instance Value_eq_dec : EqDecision Value.
Proof. solve_decision. Defined.

(** [str(v)], as an f-string renders a value. *)
Definition py_str (v : Value) : string :=
  match v with
  | VStr s => s
  | VInt z => pretty z
  | VBool true => "True"
  | VBool false => "False"
  | VNull => "None"
  end.

(** A document is a Python [dict] from field names to values, a collection
    is the documents in natural order. *)
Abbreviation Doc := (gmap string Value).
Abbreviation Collection := (list (gmap string Value)).

(** [d.get(k, default)] *)
Definition dict_get (d : Doc) (k : string) (default : Value) : Value :=
  match d !! k with
  | Some v => v
  | None => default
  end.

(** Truth value of what [os.getenv] returns: [None] and [''] are false. *)
Definition truthy_str (o : option string) : bool :=
  match o with
  | Some s => negb (String.eqb s "")
  | None => false
  end.

(** Truth value of what [find_one] returns: [None] and [{}] are false. *)
Definition truthy_doc (o : option Doc) : bool :=
  match o with
  | Some d => negb (bool_decide (d = ∅))
  | None => false
  end.

(** ** The users collection *)

(** A query filter [{k1: v1, ...}] matches a document that has every listed
    field with exactly the listed value. *)
Definition matches (flt d : Doc) : bool :=
  forallb (fun kv => bool_decide (d !! kv.1 = Some kv.2)) (map_to_list flt).

(** The update documents the script uses: [{'$set': fields}]. *)
Inductive Update : Type :=
  | USet (fields : Doc).

Definition apply_update (u : Update) (d : Doc) : Doc :=
  match u with
  | USet fields => fields ∪ d
  end.

(** [collection.find_one(flt)]: the first matching document. *)
Fixpoint find_one_in (flt : Doc) (c : Collection) : option Doc :=
  match c with
  | [] => None
  | d :: r => if matches flt d then Some d else find_one_in flt r
  end.

(** What [update_one] reports. *)
Record UpdateResult : Type := mkUpdateResult {
  matched_count : Z;
  modified_count : Z
}.

(** [collection.update_one(flt, u)]: the first matching document is
    rewritten; it counts as modified only if the update changed it. *)
Fixpoint update_one_in (flt : Doc) (u : Update) (c : Collection)
  : Collection * UpdateResult :=
  match c with
  | [] => ([], mkUpdateResult 0 0)
  | d :: r =>
      if matches flt d then
        let d' := apply_update u d in
        (d' :: r, mkUpdateResult 1 (if bool_decide (d' = d) then 0 else 1))
      else
        let '(r', res) := update_one_in flt u r in (d :: r', res)
  end.

(** ** Exceptions, the world and the statement monad *)

(** A raised exception: whether it is an instance of [Exception] (every
    error of the database client is; [KeyboardInterrupt] is not) and
    [str(e)]. *)
Record py_exn : Type := mkExn {
  is_Exception : bool;
  exn_str : string
}.

(** Calls made to the database client, logged when they are made, whether
    they return or raise. *)
Inductive Call : Type :=
  | CMongoClient (uri : string) (serverSelectionTimeoutMS : Z)
  | CGetDefaultDatabase
  | CFindOne (flt : Doc)
  | CUpdateOne (flt : Doc) (u : Update)
  | CClose.

(** What the outside decides during one run. *)
Record Fate : Type := mkFate {
  MongoClient_raises : option py_exn;
  get_default_database_raises : option py_exn;
  find_one_raises : option py_exn;
  (** other clients writing to the collection after the script's read and
      before its write *)
  concurrent_writers : Collection -> Collection;
  update_one_raises : option py_exn
}.

Record World : Type := mkWorld {
  environ : gmap string string;   (* os.environ *)
  users : Collection;             (* db.users *)
  open_clients : nat;             (* clients opened and not yet closed *)
  stdout : list string;           (* one entry per print call *)
  calls : list Call;              (* database client calls, oldest first *)
  fate : Fate
}.

(** The local variables of [make_admin] that the code inspects through
    [locals()]. *)
Record Locals : Type := mkLocals {
  client : option unit
}.

Record State : Type := mkState {
  world : World;
  frame : Locals
}.

Inductive Outcome (A : Type) : Type :=
  | Ret (a : A)
  | Raise (e : py_exn).
Arguments Ret {A} a.
Arguments Raise {A} e.

Definition Stmt (A : Type) : Type := State -> Outcome A * State.

Definition ret {A} (a : A) : Stmt A := fun s => (Ret a, s).

Definition bind {A B} (m : Stmt A) (k : A -> Stmt B) : Stmt B :=
  fun s =>
    match m s with
    | (Ret a, s') => k a s'
    | (Raise e, s') => (Raise e, s')
    end.

#[global] Instance Stmt_ret : MRet Stmt := @ret.
#[global] Instance Stmt_bind : MBind Stmt := fun A B k m => bind m k.

(** [try: body except Exception as e: handler(e) finally: final].  The
    handler takes instances of [Exception] only; the [finally] block runs
    on every way out of the body or the handler, and an exception it
    raises replaces the pending outcome. *)
Definition try_except_finally {A}
    (body : Stmt A) (handler : py_exn -> Stmt A) (final : Stmt unit) : Stmt A :=
  fun s =>
    let '(r1, s1) := body s in
    let '(r2, s2) :=
      match r1 with
      | Ret a => (Ret a, s1)
      | Raise e => if is_Exception e then handler e s1 else (Raise e, s1)
      end in
    match final s2 with
    | (Ret _, s3) => (r2, s3)
    | (Raise e, s3) => (Raise e, s3)
    end.

(** *** Primitive statements *)

Definition on_world (f : World -> World) : Stmt unit :=
  fun s => (Ret tt, mkState (f (world s)) (frame s)).

Definition print (line : string) : Stmt unit :=
  on_world (fun w =>
    mkWorld (environ w) (users w) (open_clients w) (stdout w ++ [line])
            (calls w) (fate w)).

Definition log_call (c : Call) : Stmt unit :=
  on_world (fun w =>
    mkWorld (environ w) (users w) (open_clients w) (stdout w)
            (calls w ++ [c]) (fate w)).

(** A call that fate may make raise. *)
Definition may_raise (pick : Fate -> option py_exn) : Stmt unit :=
  fun s =>
    match pick (fate (world s)) with
    | Some e => (Raise e, s)
    | None => (Ret tt, s)
    end.

Definition get_world : Stmt World :=
  fun s => (Ret (world s), s).

(** [os.getenv(name)] *)
Definition os_getenv (name : string) : Stmt (option string) :=
  w ← get_world;
  mret (environ w !! name).

(** [MongoClient(uri, serverSelectionTimeoutMS=t)] *)
Definition MongoClient (uri : string) (t : Z) : Stmt unit :=
  log_call (CMongoClient uri t);;
  may_raise MongoClient_raises;;
  on_world (fun w =>
    mkWorld (environ w) (users w) (S (open_clients w)) (stdout w)
            (calls w) (fate w)).

(** The assignment [client = ...]: after it, ['client' in locals()]. *)
Definition assign_client (c : unit) : Stmt unit :=
  fun s => (Ret tt, mkState (world s) (mkLocals (Some c))).

(** [client.get_default_database()] *)
Definition get_default_database : Stmt unit :=
  log_call CGetDefaultDatabase;;
  may_raise get_default_database_raises.

(** [db.users.find_one(flt)] *)
Definition find_one (flt : Doc) : Stmt (option Doc) :=
  log_call (CFindOne flt);;
  may_raise find_one_raises;;
  w ← get_world;
  mret (find_one_in flt (users w)).

(** [db.users.update_one(flt, u)]; by the time the write reaches the
    server the other writers have had their turn. *)
Definition update_one (flt : Doc) (u : Update) : Stmt UpdateResult :=
  log_call (CUpdateOne flt u);;
  may_raise update_one_raises;;
  w ← get_world;
  let '(c', res) := update_one_in flt u (concurrent_writers (fate w) (users w)) in
  on_world (fun w =>
    mkWorld (environ w) c' (open_clients w) (stdout w) (calls w) (fate w));;
  mret res.

(** [client.close()] *)
Definition close : Stmt unit :=
  log_call CClose;;
  on_world (fun w =>
    mkWorld (environ w) (users w) (Nat.pred (open_clients w)) (stdout w)
            (calls w) (fate w)).

(** ** The script *)

Definition email_filter (email : string) : Doc :=
  {[ "email" := VStr (lower email) ]}.

Definition set_role_admin : Update :=
  USet {[ "role" := VStr "admin" ]}.

(** The body of the [try] block, lines 12 to 51. *)
Definition make_admin_body (email : string) : Stmt bool :=
  mongo_uri ← os_getenv "MONGODB_URI";
  if negb (truthy_str mongo_uri) then
    print "❌ MONGODB_URI not found in .env file";;
    mret false
  else
    c ← MongoClient (default "" mongo_uri) 5000;
    assign_client c;;
    get_default_database;;
    print ("Connected to MongoDB" +:+ nl);;
    user ← find_one (email_filter email);
    if negb (truthy_doc user) then
      print ("❌ User not found with email: " +:+ email);;
      print (nl +:+ "Make sure the user has an instructor account first.");;
      mret false
    else
      let user := default ∅ user in
      print ("Found user: " +:+ py_str (dict_get user "firstName" (VStr ""))
             +:+ " " +:+ py_str (dict_get user "lastName" (VStr "")));;
      print ("Current role: " +:+ py_str (dict_get user "role" (VStr "instructor")));;
      if bool_decide (user !! "role" = Some (VStr "admin")) then
        print (nl +:+ "✅ User is already an admin!");;
        mret true
      else
        result ← update_one (email_filter email) set_role_admin;
        if 0 <? modified_count result then
          print (nl +:+ "✅ Successfully updated " +:+ email +:+ " to admin role!");;
          print (nl +:+ "You can now access the admin panel at:");;
          print "https://instructor.intellaclick.com/admin.html";;
          mret true
        else
          print "❌ Failed to update user";;
          mret false.

(** The [except Exception as e] handler, lines 53 to 55. *)
Definition make_admin_handler (e : py_exn) : Stmt bool :=
  print ("Error: " +:+ exn_str e);;
  mret false.

(** The [finally] block, lines 56 to 58. *)
Definition make_admin_finally : Stmt unit :=
  fun s =>
    match client (frame s) with
    | Some _ => close s
    | None => (Ret tt, s)
    end.

(** [make_admin(email)]: a call runs in a fresh frame. *)
Definition make_admin (email : string) (w : World) : Outcome bool * World :=
  let '(r, s) :=
    try_except_finally (make_admin_body email) make_admin_handler
                       make_admin_finally (mkState w (mkLocals None)) in
  (r, world s).

(** How the process ends: [sys.exit(code)], or an exception nobody caught. *)
Inductive ProcessEnd : Type :=
  | Exit (code : Z)
  | Uncaught (e : py_exn).

(** The [__main__] block, lines 60 to 68. *)
Definition main (argv : list string) (w : World) : ProcessEnd * World :=
  if (length argv <? 2)%nat then
    match (print "Usage: python3 make-admin.py <email>";;
           print "Example: python3 make-admin.py mostafa.afifi77@gmail.com")
          (mkState w (mkLocals None)) with
    | (_, s) => (Exit 1, world s)
    end
  else
    let email := nth 1 argv "" in
    match make_admin email w with
    | (Ret success, w') => (Exit (if success then 0 else 1), w')
    | (Raise e, w') => (Uncaught e, w')
    end.

(** ** Vocabulary for the statements *)

(** The world after a run that left the collection as [us], printed
    [printed] and made the client calls [called]; the environment, the
    number of open clients and fate are as before. *)
Definition after (w : World) (us : Collection) (printed : list string)
    (called : list Call) : World :=
  mkWorld (environ w) us (open_clients w) (stdout w ++ printed)
          (calls w ++ called) (fate w).

(** The connection string is set to the non-empty [uri]. *)
Definition configured (w : World) (uri : string) : Prop :=
  environ w !! "MONGODB_URI" = Some uri ∧ uri ≠ "".

(** No client call raises up to and including the lookup. *)
Definition lookup_returns (w : World) : Prop :=
  MongoClient_raises (fate w) = None ∧
  get_default_database_raises (fate w) = None ∧
  find_one_raises (fate w) = None.

(** Every exception a client call raises is an instance of [Exception]. *)
Definition raises_only_Exception (f : Fate) : Prop :=
  ∀ e, (MongoClient_raises f = Some e ∨
        get_default_database_raises f = Some e ∨
        find_one_raises f = Some e ∨
        update_one_raises f = Some e) → is_Exception e = true.

(** What becomes of an exception that leaves the [try] body. *)
Definition handled (e : py_exn) : Outcome bool :=
  if is_Exception e then Ret false else Raise e.

Definition diagnostic (e : py_exn) : list string :=
  if is_Exception e then ["Error: " +:+ exn_str e] else [].

(** The lines printed on the way. *)
Definition connected_line : string := "Connected to MongoDB" +:+ nl.

Definition found_lines (d : Doc) : list string :=
  [ "Found user: " +:+ py_str (dict_get d "firstName" (VStr ""))
      +:+ " " +:+ py_str (dict_get d "lastName" (VStr ""));
    "Current role: " +:+ py_str (dict_get d "role" (VStr "instructor")) ].

Definition not_found_lines (email : string) : list string :=
  [ "❌ User not found with email: " +:+ email;
    nl +:+ "Make sure the user has an instructor account first." ].

Definition update_lines (email : string) (modified : bool) : list string :=
  if modified then
    [ nl +:+ "✅ Successfully updated " +:+ email +:+ " to admin role!";
      nl +:+ "You can now access the admin panel at:";
      "https://instructor.intellaclick.com/admin.html" ]
  else [ "❌ Failed to update user" ].

Definition is_close (c : Call) : bool :=
  match c with CClose => true | _ => false end.

Definition is_connect (c : Call) : bool :=
  match c with CMongoClient _ _ => true | _ => false end.

Definition is_write (c : Call) : bool :=
  match c with CUpdateOne _ _ => true | _ => false end.

(** A client object came into being during the run. *)
Definition acquired (w : World) : bool :=
  truthy_str (environ w !! "MONGODB_URI") &&
  match MongoClient_raises (fate w) with None => true | Some _ => false end.


(** The runs of [make_admin], one constructor per way through the code. *)
Inductive Path (email : string) (w : World) : Outcome bool * World → Prop :=
  | path_no_config :
      truthy_str (environ w !! "MONGODB_URI") = false →
      Path email w
        (Ret false,
         after w (users w) ["❌ MONGODB_URI not found in .env file"] [])
  | path_MongoClient_raises uri e :
      configured w uri →
      MongoClient_raises (fate w) = Some e →
      Path email w
        (handled e,
         after w (users w) (diagnostic e) [CMongoClient uri 5000])
  | path_get_default_database_raises uri e :
      configured w uri →
      MongoClient_raises (fate w) = None →
      get_default_database_raises (fate w) = Some e →
      Path email w
        (handled e,
         after w (users w) (diagnostic e)
           [CMongoClient uri 5000; CGetDefaultDatabase; CClose])
  | path_find_one_raises uri e :
      configured w uri →
      MongoClient_raises (fate w) = None →
      get_default_database_raises (fate w) = None →
      find_one_raises (fate w) = Some e →
      Path email w
        (handled e,
         after w (users w) (connected_line :: diagnostic e)
           [CMongoClient uri 5000; CGetDefaultDatabase;
            CFindOne (email_filter email); CClose])
  | path_not_found uri :
      configured w uri → lookup_returns w →
      find_one_in (email_filter email) (users w) = None →
      Path email w
        (Ret false,
         after w (users w) (connected_line :: not_found_lines email)
           [CMongoClient uri 5000; CGetDefaultDatabase;
            CFindOne (email_filter email); CClose])
  | path_already_admin uri d :
      configured w uri → lookup_returns w →
      find_one_in (email_filter email) (users w) = Some d →
      d !! "role" = Some (VStr "admin") →
      Path email w
        (Ret true,
         after w (users w)
           (connected_line :: found_lines d ++
              [nl +:+ "✅ User is already an admin!"])
           [CMongoClient uri 5000; CGetDefaultDatabase;
            CFindOne (email_filter email); CClose])
  | path_update_one_raises uri d e :
      configured w uri → lookup_returns w →
      find_one_in (email_filter email) (users w) = Some d →
      d !! "role" ≠ Some (VStr "admin") →
      update_one_raises (fate w) = Some e →
      Path email w
        (handled e,
         after w (users w) (connected_line :: found_lines d ++ diagnostic e)
           [CMongoClient uri 5000; CGetDefaultDatabase;
            CFindOne (email_filter email);
            CUpdateOne (email_filter email) set_role_admin; CClose])
  | path_update_one uri d :
      configured w uri → lookup_returns w →
      find_one_in (email_filter email) (users w) = Some d →
      d !! "role" ≠ Some (VStr "admin") →
      update_one_raises (fate w) = None →
      Path email w
        (let '(us, res) :=
           update_one_in (email_filter email) set_role_admin
             (concurrent_writers (fate w) (users w)) in
         (Ret (0 <? modified_count res),
          after w us
            (connected_line :: found_lines d ++
               update_lines email (0 <? modified_count res))
            [CMongoClient uri 5000; CGetDefaultDatabase;
             CFindOne (email_filter email);
             CUpdateOne (email_filter email) set_role_admin; CClose])).

(** The ways [make_admin] fails: no connection string, an error of the
    database client leaving the [try] body (connection failure and any
    other error), no such user, and an update that modified nothing. *)
Inductive Failure (email : string) (w : World) : Prop :=
  | missing_configuration :
      truthy_str (environ w !! "MONGODB_URI") = false →
      Failure email w
  | client_error e s :
      make_admin_body email (mkState w (mkLocals None)) = (Raise e, s) →
      is_Exception e = true →
      Failure email w
  | user_not_found uri :
      configured w uri → lookup_returns w →
      find_one_in (email_filter email) (users w) = None →
      Failure email w
  | update_failed uri d :
      configured w uri → lookup_returns w →
      find_one_in (email_filter email) (users w) = Some d →
      d !! "role" ≠ Some (VStr "admin") →
      update_one_raises (fate w) = None →
      modified_count
        (update_one_in (email_filter email) set_role_admin
           (concurrent_writers (fate w) (users w))).2 = 0 →
      Failure email w.

(** ** Sample worlds *)

(** Nothing raises and nobody else writes. *)
Definition calm : Fate := mkFate None None None (fun c => c) None.

Definition sample_environ : gmap string string :=
  {[ "MONGODB_URI" := "mongodb://localhost:27017/intellaclick" ]}.

Definition instructor_doc : Doc :=
  list_to_map [ ("email", VStr "user@example.com");
                ("firstName", VStr "Ada");
                ("lastName", VStr "Byron");
                ("role", VStr "instructor") ].

Definition admin_doc : Doc :=
  list_to_map [ ("email", VStr "admin.already@test.com");
                ("role", VStr "admin") ].

(** A record that has no role field at all. *)
Definition roleless_doc : Doc :=
  list_to_map [ ("email", VStr "new.instructor@test.com");
                ("firstName", VStr "Noor") ].

Definition sample_world (f : Fate) : World :=
  mkWorld sample_environ [admin_doc; instructor_doc; roleless_doc] 0 [] [] f.

(** The same collection with no connection string in the environment. *)
Definition unconfigured_world : World :=
  mkWorld ∅ [admin_doc; instructor_doc; roleless_doc] 0 [] [] calm.

Definition timeout : py_exn :=
  mkExn true "localhost:27017: [Errno 111] Connection refused".

(** Another client deletes every record between the read and the write. *)
Definition racing : Fate := mkFate None None None (fun _ => []) None.

(** The server cannot be reached: the lookup raises. *)
Definition unreachable : Fate :=
  mkFate None None (Some timeout) (fun c => c) None.

(** [Ctrl-C] while the lookup is under way. *)
Definition interrupted : Fate :=
  mkFate None None (Some (mkExn false "KeyboardInterrupt")) (fun c => c) None.

(** The connection string is there but empty. *)
Definition empty_uri_world : World :=
  mkWorld {[ "MONGODB_URI" := "" ]} [admin_doc; instructor_doc; roleless_doc]
          0 [] [] calm.

(** Another client promotes everybody between the read and the write. *)
Definition promoting : Fate :=
  mkFate None None None
         (fun c => (fun d : Doc => <[ "role" := VStr "admin" ]> d) <$> c) None.

(** A record stored under an address that is not all lowercase. *)
Definition mixed_case_doc : Doc :=
  list_to_map [ ("email", VStr "Grace@Example.com");
                ("role", VStr "instructor") ].

Definition mixed_case_world : World :=
  mkWorld sample_environ [mixed_case_doc; instructor_doc] 0 [] [] calm.

(** The call sequences a run can add to the log. *)
Definition call_shapes (email uri : string) : list (list Call) :=
  [ [CMongoClient uri 5000];
    [CMongoClient uri 5000; CGetDefaultDatabase; CClose];
    [CMongoClient uri 5000; CGetDefaultDatabase;
     CFindOne (email_filter email); CClose];
    [CMongoClient uri 5000; CGetDefaultDatabase;
     CFindOne (email_filter email);
     CUpdateOne (email_filter email) set_role_admin; CClose] ].

(** ** Symbolic execution *)

Ltac exec :=
  cbv beta iota zeta delta
    [make_admin try_except_finally make_admin_body make_admin_handler
     make_admin_finally mbind mret Stmt_bind Stmt_ret bind ret os_getenv
     get_world MongoClient assign_client get_default_database find_one
     update_one close print log_call on_world may_raise world frame client
     environ users open_clients stdout calls fate MongoClient_raises
     get_default_database_raises find_one_raises concurrent_writers
     update_one_raises negb default from_option id Nat.pred after handled
     diagnostic connected_line found_lines not_found_lines update_lines
     configured lookup_returns].

(** Open the world record and move the assumptions on it into the goal's
    terms, then run the code. *)
Ltac open_world w :=
  destruct w as [env us oc out cs [f1 f2 f3 f4 f5]];
  unfold configured, lookup_returns; simpl.

(** ** Facts about values and the collection *)

Lemma truthy_str_Some (uri : string) : uri ≠ "" → truthy_str (Some uri) = true.
Proof.
  intros H. unfold truthy_str.
  destruct (String.eqb_spec uri ""); [contradiction | reflexivity].
Qed.

Lemma truthy_str_true (o : option string) :
  truthy_str o = true → ∃ uri, o = Some uri ∧ uri ≠ "".
Proof.
  destruct o as [s|]; simpl; [|discriminate].
  destruct (String.eqb_spec s ""); [discriminate|]. eauto.
Qed.

Lemma matches_email_filter (email : string) (d : Doc) :
  matches (email_filter email) d
  = bool_decide (d !! "email" = Some (VStr (lower email))).
Proof.
  unfold matches, email_filter. rewrite map_to_list_singleton. simpl.
  apply andb_true_r.
Qed.

Lemma find_one_in_matches (flt : Doc) (c : Collection) (d : Doc) :
  find_one_in flt c = Some d → matches flt d = true.
Proof.
  induction c as [|x r IH]; simpl; [discriminate|].
  destruct (matches flt x) eqn:Hm; [|exact IH].
  intros [= <-]. exact Hm.
Qed.

(** What the lookup by email returns has the email field, so it is never
    the empty dict that line 26 would take for a miss. *)
Lemma found_by_email (email : string) (c : Collection) (d : Doc) :
  find_one_in (email_filter email) c = Some d →
  d !! "email" = Some (VStr (lower email)).
Proof.
  intros H. apply find_one_in_matches in H.
  rewrite matches_email_filter in H. by apply bool_decide_eq_true in H.
Qed.

Lemma found_by_email_truthy (email : string) (c : Collection) (d : Doc) :
  find_one_in (email_filter email) c = Some d → truthy_doc (Some d) = true.
Proof.
  intros H. apply found_by_email in H. unfold truthy_doc.
  rewrite bool_decide_eq_false_2; [reflexivity|].
  intros ->. rewrite lookup_empty in H. discriminate.
Qed.

(** [update_one] rewrites the very document [find_one] returns: the first
    match, at some index [i] with no match before it. *)
Lemma update_one_in_found (flt : Doc) (u : Update) (c : Collection) (d : Doc) :
  find_one_in flt c = Some d →
  ∃ i : nat,
    c !! i = Some d ∧
    (∀ (j : nat) (x : Doc), (j < i)%nat → c !! j = Some x → matches flt x = false) ∧
    update_one_in flt u c
    = (<[i := apply_update u d]> c,
       mkUpdateResult 1 (if bool_decide (apply_update u d = d) then 0 else 1)).
Proof.
  induction c as [|x r IH]; simpl; [discriminate|].
  destruct (matches flt x) eqn:Hm.
  - intros [= <-]. exists 0%nat. split; [reflexivity|]. split; [|reflexivity].
    intros j y Hj. inversion Hj.
  - intros H. destruct (IH H) as (i & Hi & Hfirst & Hup).
    exists (S i). split; [exact Hi|]. split.
    + intros [|j] y Hj Hy; simpl in Hy.
      * by injection Hy as <-.
      * apply (Hfirst j); [apply Nat.succ_lt_mono, Hj | exact Hy].
    + rewrite Hup. reflexivity.
Qed.

Lemma update_one_in_missing (flt : Doc) (u : Update) (c : Collection) :
  find_one_in flt c = None →
  update_one_in flt u c = (c, mkUpdateResult 0 0).
Proof.
  induction c as [|x r IH]; simpl; [reflexivity|].
  destruct (matches flt x); [discriminate|].
  intros H. rewrite (IH H). reflexivity.
Qed.

Lemma apply_set_role_admin (d : Doc) :
  apply_update set_role_admin d = <[ "role" := VStr "admin" ]> d.
Proof. unfold apply_update, set_role_admin. symmetry. apply insert_union_singleton_l. Qed.

Lemma set_role_admin_changes (d : Doc) :
  d !! "role" ≠ Some (VStr "admin") → apply_update set_role_admin d ≠ d.
Proof.
  intros Hrole Heq. apply Hrole. rewrite <- Heq at 1.
  rewrite apply_set_role_admin. apply lookup_insert_eq.
Qed.

(** The modification count is never negative and at most one. *)
Lemma modified_count_range (flt : Doc) (u : Update) (c : Collection) :
  0 <= modified_count (update_one_in flt u c).2 <= 1.
Proof.
  induction c as [|x r IH]; simpl; [lia|].
  destruct (matches flt x).
  - simpl. case_bool_decide; lia.
  - destruct (update_one_in flt u r) as [r' res]. exact IH.
Qed.

Lemma apply_set_role_admin_other (d : Doc) (k : string) :
  k ≠ "role" → apply_update set_role_admin d !! k = d !! k.
Proof. intros Hk. rewrite apply_set_role_admin. by apply lookup_insert_ne. Qed.

(** An update leaves every document but one as it was, and in that one
    changes nothing outside the fields it sets. *)
Lemma update_one_in_frame (flt : Doc) (c : Collection) :
  Forall2 (fun d d' : Doc => ∀ k, k ≠ "role" → d' !! k = d !! k)
          c (update_one_in flt set_role_admin c).1.
Proof.
  induction c as [|x r IH]; simpl; [constructor|].
  destruct (matches flt x).
  - simpl. constructor.
    + intros k Hk. exact (apply_set_role_admin_other x k Hk).
    + apply Forall2_same_length_lookup. split; [reflexivity|]. intros i a b Ha Hb.
      rewrite Ha in Hb. by injection Hb as <-.
  - destruct (update_one_in flt set_role_admin r) as [r' res]. simpl in *.
    constructor; [reflexivity | exact IH].
Qed.

(** ** The runs of [make_admin], one by one *)

Section Runs.
Variable email : string.

Lemma run_no_config (w : World) :
  truthy_str (environ w !! "MONGODB_URI") = false →
  make_admin email w
  = (Ret false,
     after w (users w) ["❌ MONGODB_URI not found in .env file"] []).
Proof.
  open_world w. intros H. exec. rewrite H, app_nil_r. reflexivity.
Qed.

Lemma run_MongoClient_raises (w : World) (uri : string) (e : py_exn) :
  configured w uri →
  MongoClient_raises (fate w) = Some e →
  make_admin email w
  = (handled e, after w (users w) (diagnostic e) [CMongoClient uri 5000]).
Proof.
  open_world w. intros [Henv Huri] ->.
  exec. rewrite Henv, (truthy_str_Some _ Huri). exec.
  destruct (is_Exception e); exec; rewrite ?app_nil_r; reflexivity.
Qed.

Lemma run_get_default_database_raises (w : World) (uri : string) (e : py_exn) :
  configured w uri →
  MongoClient_raises (fate w) = None →
  get_default_database_raises (fate w) = Some e →
  make_admin email w
  = (handled e,
     after w (users w) (diagnostic e)
       [CMongoClient uri 5000; CGetDefaultDatabase; CClose]).
Proof.
  open_world w. intros [Henv Huri] -> ->.
  exec. rewrite Henv, (truthy_str_Some _ Huri). exec.
  destruct (is_Exception e); exec; rewrite <- ?app_assoc, ?app_nil_r;
    reflexivity.
Qed.

Lemma run_find_one_raises (w : World) (uri : string) (e : py_exn) :
  configured w uri →
  MongoClient_raises (fate w) = None →
  get_default_database_raises (fate w) = None →
  find_one_raises (fate w) = Some e →
  make_admin email w
  = (handled e,
     after w (users w) (connected_line :: diagnostic e)
       [CMongoClient uri 5000; CGetDefaultDatabase;
        CFindOne (email_filter email); CClose]).
Proof.
  open_world w. intros [Henv Huri] -> -> ->.
  exec. rewrite Henv, (truthy_str_Some _ Huri). exec.
  destruct (is_Exception e); exec; rewrite <- ?app_assoc; reflexivity.
Qed.

Lemma run_not_found (w : World) (uri : string) :
  configured w uri → lookup_returns w →
  find_one_in (email_filter email) (users w) = None →
  make_admin email w
  = (Ret false,
     after w (users w) (connected_line :: not_found_lines email)
       [CMongoClient uri 5000; CGetDefaultDatabase;
        CFindOne (email_filter email); CClose]).
Proof.
  open_world w. intros [Henv Huri] (-> & -> & ->) Hfind.
  exec. rewrite Henv, (truthy_str_Some _ Huri), Hfind.
  unfold truthy_doc. exec. rewrite <- ?app_assoc. reflexivity.
Qed.

Lemma run_already_admin (w : World) (uri : string) (d : Doc) :
  configured w uri → lookup_returns w →
  find_one_in (email_filter email) (users w) = Some d →
  d !! "role" = Some (VStr "admin") →
  make_admin email w
  = (Ret true,
     after w (users w)
       (connected_line :: found_lines d ++
          [nl +:+ "✅ User is already an admin!"])
       [CMongoClient uri 5000; CGetDefaultDatabase;
        CFindOne (email_filter email); CClose]).
Proof.
  open_world w. intros [Henv Huri] (-> & -> & ->) Hfind Hrole.
  exec. rewrite Henv, (truthy_str_Some _ Huri), Hfind,
    (found_by_email_truthy _ _ _ Hfind), (bool_decide_eq_true_2 _ Hrole).
  exec. rewrite <- ?app_assoc. reflexivity.
Qed.

Lemma run_update_one_raises (w : World) (uri : string) (d : Doc) (e : py_exn) :
  configured w uri → lookup_returns w →
  find_one_in (email_filter email) (users w) = Some d →
  d !! "role" ≠ Some (VStr "admin") →
  update_one_raises (fate w) = Some e →
  make_admin email w
  = (handled e,
     after w (users w) (connected_line :: found_lines d ++ diagnostic e)
       [CMongoClient uri 5000; CGetDefaultDatabase;
        CFindOne (email_filter email);
        CUpdateOne (email_filter email) set_role_admin; CClose]).
Proof.
  open_world w. intros [Henv Huri] (-> & -> & ->) Hfind Hrole ->.
  exec. rewrite Henv, (truthy_str_Some _ Huri), Hfind,
    (found_by_email_truthy _ _ _ Hfind), (bool_decide_eq_false_2 _ Hrole).
  exec. destruct (is_Exception e); exec; rewrite <- ?app_assoc; reflexivity.
Qed.

Lemma run_update_one (w : World) (uri : string) (d : Doc) :
  configured w uri → lookup_returns w →
  find_one_in (email_filter email) (users w) = Some d →
  d !! "role" ≠ Some (VStr "admin") →
  update_one_raises (fate w) = None →
  make_admin email w
  = (let '(us, res) :=
       update_one_in (email_filter email) set_role_admin
         (concurrent_writers (fate w) (users w)) in
     (Ret (0 <? modified_count res),
      after w us
        (connected_line :: found_lines d ++
           update_lines email (0 <? modified_count res))
        [CMongoClient uri 5000; CGetDefaultDatabase;
         CFindOne (email_filter email);
         CUpdateOne (email_filter email) set_role_admin; CClose])).
Proof.
  open_world w. intros [Henv Huri] (-> & -> & ->) Hfind Hrole ->.
  exec. rewrite Henv, (truthy_str_Some _ Huri), Hfind,
    (found_by_email_truthy _ _ _ Hfind), (bool_decide_eq_false_2 _ Hrole).
  exec. destruct (update_one_in _ _ _) as [us' res].
  destruct (0 <? modified_count res); exec; rewrite <- ?app_assoc;
    reflexivity.
Qed.

(** Every run is one of the eight. *)
Lemma make_admin_path (w : World) : Path email w (make_admin email w).
Proof.
  destruct (truthy_str (environ w !! "MONGODB_URI")) eqn:Henv.
  2:{ rewrite (run_no_config w Henv). by constructor. }
  apply truthy_str_true in Henv as (uri & Henv & Huri).
  assert (Hc : configured w uri) by (split; assumption).
  destruct (MongoClient_raises (fate w)) as [e|] eqn:H1.
  { rewrite (run_MongoClient_raises w uri e Hc H1). by constructor. }
  destruct (get_default_database_raises (fate w)) as [e|] eqn:H2.
  { rewrite (run_get_default_database_raises w uri e Hc H1 H2).
    by constructor. }
  destruct (find_one_raises (fate w)) as [e|] eqn:H3.
  { rewrite (run_find_one_raises w uri e Hc H1 H2 H3). by constructor. }
  assert (Hl : lookup_returns w) by (repeat split; assumption).
  destruct (find_one_in (email_filter email) (users w)) as [d|] eqn:Hfind.
  2:{ rewrite (run_not_found w uri Hc Hl Hfind). by constructor. }
  destruct (decide (d !! "role" = Some (VStr "admin"))) as [Hrole|Hrole].
  { rewrite (run_already_admin w uri d Hc Hl Hfind Hrole). by constructor. }
  destruct (update_one_raises (fate w)) as [e|] eqn:H4.
  { rewrite (run_update_one_raises w uri d e Hc Hl Hfind Hrole H4).
    by constructor. }
  rewrite (run_update_one w uri d Hc Hl Hfind Hrole H4). by constructor.
Qed.

End Runs.

(** ** The properties of the specification *)

(** C1 (elevation, frame).  When the lowercased email finds a record whose
    role is anything but ["admin"] and the client calls return, the run
    issues exactly one update, the one that sets [role] to ["admin"] under
    the email filter.  That update changes no field other than [role] in
    any document of the collection; and when nobody else writes in between,
    the collection afterwards is the old one with the found record's role
    set to ["admin"], every other field of that record as it was, and the
    call returns [True]. *)
Theorem elevation_sets_role_only (email uri : string) (w : World) (d : Doc) :
  configured w uri → lookup_returns w →
  update_one_raises (fate w) = None →
  find_one_in (email_filter email) (users w) = Some d →
  d !! "role" ≠ Some (VStr "admin") →
  calls (make_admin email w).2
  = calls w ++ [CMongoClient uri 5000; CGetDefaultDatabase;
                CFindOne (email_filter email);
                CUpdateOne (email_filter email)
                           (USet {[ "role" := VStr "admin" ]});
                CClose]
  ∧ Forall2 (fun old new : Doc => ∀ k, k ≠ "role" → new !! k = old !! k)
      (concurrent_writers (fate w) (users w)) (users (make_admin email w).2)
  ∧ (concurrent_writers (fate w) (users w) = users w →
     (make_admin email w).1 = Ret true ∧
     ∃ (i : nat) (d' : Doc),
       users w !! i = Some d
       ∧ users (make_admin email w).2 = <[i := d']> (users w)
       ∧ d' !! "role" = Some (VStr "admin")
       ∧ ∀ k, k ≠ "role" → d' !! k = d !! k).
Proof.
  intros Hc Hl Hup Hfind Hrole.
  rewrite (run_update_one email w uri d Hc Hl Hfind Hrole Hup).
  pose proof (update_one_in_frame (email_filter email)
                (concurrent_writers (fate w) (users w))) as Hframe.
  split; [|split].
  - destruct (update_one_in _ _ _); reflexivity.
  - destruct (update_one_in _ _ _); exact Hframe.
  - intros Hquiet. rewrite Hquiet.
    destruct (update_one_in_found _ set_role_admin _ _ Hfind)
      as (i & Hi & _ & Hupd).
    rewrite Hupd, (bool_decide_eq_false_2 _ (set_role_admin_changes d Hrole)).
    split; [reflexivity|].
    exists i, (apply_update set_role_admin d).
    split; [exact Hi|]. split; [reflexivity|]. split.
    + rewrite apply_set_role_admin. apply lookup_insert_eq.
    + intros k Hk. by apply apply_set_role_admin_other.
Qed.

Lemma elevation_sets_role_only_witness :
  configured (sample_world calm) "mongodb://localhost:27017/intellaclick"
  ∧ lookup_returns (sample_world calm)
  ∧ find_one_in (email_filter "User@Example.com") (users (sample_world calm))
    = Some instructor_doc
  ∧ instructor_doc !! "role" ≠ Some (VStr "admin")
  ∧ (make_admin "User@Example.com" (sample_world calm)).1 = Ret true.
Proof.
  assert (Hc : configured (sample_world calm)
                 "mongodb://localhost:27017/intellaclick")
    by (split; [reflexivity | discriminate]).
  assert (Hl : lookup_returns (sample_world calm))
    by (repeat split; reflexivity).
  assert (Hf : find_one_in (email_filter "User@Example.com")
                 (users (sample_world calm)) = Some instructor_doc)
    by (vm_compute; reflexivity).
  assert (Hr : instructor_doc !! "role" ≠ Some (VStr "admin"))
    by (vm_compute; discriminate).
  repeat (split; [assumption|]).
  exact (proj1 (proj2 (proj2
           (elevation_sets_role_only "User@Example.com" _ _ _
              Hc Hl eq_refl Hf Hr)) eq_refl)).
Defined.

(** C2 (idempotent short-circuit).  When the record found already has role
    ["admin"], the call returns [True], the collection is left as it was
    and no update call is made: the client sees the connection, the
    database selection, the lookup and the close, nothing else. *)
Theorem already_admin_is_noop (email uri : string) (w : World) (d : Doc) :
  configured w uri → lookup_returns w →
  find_one_in (email_filter email) (users w) = Some d →
  d !! "role" = Some (VStr "admin") →
  (make_admin email w).1 = Ret true
  ∧ users (make_admin email w).2 = users w
  ∧ calls (make_admin email w).2
    = calls w ++ [CMongoClient uri 5000; CGetDefaultDatabase;
                  CFindOne (email_filter email); CClose]
  ∧ List.filter is_write
      [CMongoClient uri 5000; CGetDefaultDatabase;
       CFindOne (email_filter email); CClose] = [].
Proof.
  intros Hc Hl Hfind Hrole.
  rewrite (run_already_admin email w uri d Hc Hl Hfind Hrole).
  repeat split.
Qed.

Lemma already_admin_is_noop_witness :
  configured (sample_world calm) "mongodb://localhost:27017/intellaclick"
  ∧ lookup_returns (sample_world calm)
  ∧ find_one_in (email_filter "Admin.Already@test.com")
      (users (sample_world calm)) = Some admin_doc
  ∧ admin_doc !! "role" = Some (VStr "admin")
  ∧ (make_admin "Admin.Already@test.com" (sample_world calm)).1 = Ret true
  ∧ users (make_admin "Admin.Already@test.com" (sample_world calm)).2
    = users (sample_world calm).
Proof.
  assert (Hc : configured (sample_world calm)
                 "mongodb://localhost:27017/intellaclick")
    by (split; [reflexivity | discriminate]).
  assert (Hl : lookup_returns (sample_world calm))
    by (repeat split; reflexivity).
  assert (Hf : find_one_in (email_filter "Admin.Already@test.com")
                 (users (sample_world calm)) = Some admin_doc)
    by (vm_compute; reflexivity).
  assert (Hr : admin_doc !! "role" = Some (VStr "admin"))
    by (vm_compute; reflexivity).
  repeat (split; [assumption|]).
  pose proof (already_admin_is_noop "Admin.Already@test.com" _ _ _
                Hc Hl Hf Hr) as (H1 & H2 & _).
  exact (conj H1 H2).
Defined.

(** C3 (no-op on a miss).  When no record has the lowercased email, the
    call returns [False], the collection is left as it was and no update
    call is made. *)
Theorem missing_user_is_noop (email uri : string) (w : World) :
  configured w uri → lookup_returns w →
  find_one_in (email_filter email) (users w) = None →
  (make_admin email w).1 = Ret false
  ∧ users (make_admin email w).2 = users w
  ∧ calls (make_admin email w).2
    = calls w ++ [CMongoClient uri 5000; CGetDefaultDatabase;
                  CFindOne (email_filter email); CClose]
  ∧ List.filter is_write
      [CMongoClient uri 5000; CGetDefaultDatabase;
       CFindOne (email_filter email); CClose] = [].
Proof.
  intros Hc Hl Hfind.
  rewrite (run_not_found email w uri Hc Hl Hfind).
  repeat split.
Qed.

Lemma missing_user_is_noop_witness :
  configured (sample_world calm) "mongodb://localhost:27017/intellaclick"
  ∧ lookup_returns (sample_world calm)
  ∧ find_one_in (email_filter "missing@test.com") (users (sample_world calm))
    = None
  ∧ (make_admin "missing@test.com" (sample_world calm)).1 = Ret false
  ∧ users (make_admin "missing@test.com" (sample_world calm)).2
    = users (sample_world calm).
Proof.
  assert (Hc : configured (sample_world calm)
                 "mongodb://localhost:27017/intellaclick")
    by (split; [reflexivity | discriminate]).
  assert (Hl : lookup_returns (sample_world calm))
    by (repeat split; reflexivity).
  assert (Hf : find_one_in (email_filter "missing@test.com")
                 (users (sample_world calm)) = None)
    by (vm_compute; reflexivity).
  repeat (split; [assumption|]).
  pose proof (missing_user_is_noop "missing@test.com" _ _ Hc Hl Hf)
    as (H1 & H2 & _).
  exact (conj H1 H2).
Defined.

(** C4 (configuration gate).  When [MONGODB_URI] is not in the environment,
    the call returns [False] for every email after printing its one
    message; no client call of any kind is made, so no connection is
    attempted, no client is open and the collection is untouched. *)
Theorem missing_config_fails_at_once (email : string) (w : World) :
  environ w !! "MONGODB_URI" = None →
  (make_admin email w).1 = Ret false
  ∧ calls (make_admin email w).2 = calls w
  ∧ open_clients (make_admin email w).2 = open_clients w
  ∧ users (make_admin email w).2 = users w
  ∧ stdout (make_admin email w).2
    = stdout w ++ ["❌ MONGODB_URI not found in .env file"].
Proof.
  intros Henv.
  rewrite (run_no_config email w) by (rewrite Henv; reflexivity).
  unfold after. simpl. rewrite app_nil_r. repeat split.
Qed.

Lemma missing_config_fails_at_once_witness :
  environ unconfigured_world !! "MONGODB_URI" = None
  ∧ (make_admin "user@example.com" unconfigured_world).1 = Ret false
  ∧ calls (make_admin "user@example.com" unconfigured_world).2 = [].
Proof.
  assert (He : environ unconfigured_world !! "MONGODB_URI" = None)
    by reflexivity.
  split; [exact He|].
  pose proof (missing_config_fails_at_once "user@example.com" _ He)
    as (H1 & H2 & _).
  exact (conj H1 H2).
Defined.







(** C6 (modification count).  When a record with a role other than
    ["admin"] is found and the update call returns, the call returns
    [True] exactly when the reported modification count is positive; a
    count of zero gives [False] with the update-failed message as the last
    line printed.  Either way the client sees one lookup and one update:
    nothing is tried again and nothing is read back. *)
Theorem success_iff_modified (email uri : string) (w : World) (d : Doc) :
  configured w uri → lookup_returns w →
  update_one_raises (fate w) = None →
  find_one_in (email_filter email) (users w) = Some d →
  d !! "role" ≠ Some (VStr "admin") →
  let n := modified_count
             (update_one_in (email_filter email) set_role_admin
                (concurrent_writers (fate w) (users w))).2 in
  ((make_admin email w).1 = Ret true ↔ 0 < n)
  ∧ (n = 0 →
     (make_admin email w).1 = Ret false
     ∧ last (stdout (make_admin email w).2) = Some "❌ Failed to update user")
  ∧ calls (make_admin email w).2
    = calls w ++ [CMongoClient uri 5000; CGetDefaultDatabase;
                  CFindOne (email_filter email);
                  CUpdateOne (email_filter email) set_role_admin; CClose].
Proof.
  intros Hc Hl Hup Hfind Hrole n. subst n.
  rewrite (run_update_one email w uri d Hc Hl Hfind Hrole Hup).
  destruct (update_one_in _ _ _) as [us' res]. simpl.
  split; [|split].
  - split.
    + intros [= H]. by apply Z.ltb_lt.
    + intros H. apply Z.ltb_lt in H. by rewrite H.
  - intros ->. split; [reflexivity|].
    rewrite last_app. reflexivity.
  - reflexivity.
Qed.

Lemma success_iff_modified_witness :
  configured (sample_world racing) "mongodb://localhost:27017/intellaclick"
  ∧ lookup_returns (sample_world racing)
  ∧ find_one_in (email_filter "user@example.com") (users (sample_world racing))
    = Some instructor_doc
  ∧ instructor_doc !! "role" ≠ Some (VStr "admin")
  ∧ (make_admin "user@example.com" (sample_world racing)).1 = Ret false
  ∧ last (stdout (make_admin "user@example.com" (sample_world racing)).2)
    = Some "❌ Failed to update user".
Proof.
  assert (Hc : configured (sample_world racing)
                 "mongodb://localhost:27017/intellaclick")
    by (split; [reflexivity | discriminate]).
  assert (Hl : lookup_returns (sample_world racing))
    by (repeat split; reflexivity).
  assert (Hf : find_one_in (email_filter "user@example.com")
                 (users (sample_world racing)) = Some instructor_doc)
    by (vm_compute; reflexivity).
  assert (Hr : instructor_doc !! "role" ≠ Some (VStr "admin"))
    by (vm_compute; discriminate).
  repeat (split; [assumption|]).
  exact (proj1 (proj2 (success_iff_modified "user@example.com" _ _ _
                         Hc Hl eq_refl Hf Hr)) eq_refl).
Defined.

(** C10 (absent role).  A record without any [role] field is not taken for
    an admin: the run prints the default role ["instructor"], issues the
    update that sets [role] to ["admin"] and returns, [True] whenever the
    modification count is positive, as it is when nobody else writes in
    between.  The missing field raises nothing. *)
Theorem absent_role_is_elevated (email uri : string) (w : World) (d : Doc) :
  configured w uri → lookup_returns w →
  update_one_raises (fate w) = None →
  find_one_in (email_filter email) (users w) = Some d →
  d !! "role" = None →
  let n := modified_count
             (update_one_in (email_filter email) set_role_admin
                (concurrent_writers (fate w) (users w))).2 in
  calls (make_admin email w).2
  = calls w ++ [CMongoClient uri 5000; CGetDefaultDatabase;
                CFindOne (email_filter email);
                CUpdateOne (email_filter email)
                           (USet {[ "role" := VStr "admin" ]});
                CClose]
  ∧ In "Current role: instructor" (stdout (make_admin email w).2)
  ∧ (∃ b, (make_admin email w).1 = Ret b)
  ∧ (0 < n → (make_admin email w).1 = Ret true)
  ∧ (concurrent_writers (fate w) (users w) = users w →
     (make_admin email w).1 = Ret true
     ∧ ∃ i : nat,
         users w !! i = Some d
         ∧ users (make_admin email w).2
           = <[i := <[ "role" := VStr "admin" ]> d]> (users w)).
Proof.
  intros Hc Hl Hup Hfind Hnone n. subst n.
  assert (Hrole : d !! "role" ≠ Some (VStr "admin")) by (rewrite Hnone; discriminate).
  rewrite (run_update_one email w uri d Hc Hl Hfind Hrole Hup).
  split; [|split; [|split; [|split]]].
  - destruct (update_one_in _ _ _); reflexivity.
  - destruct (update_one_in _ _ _). unfold after, found_lines, dict_get. simpl.
    rewrite Hnone. apply in_or_app. right. simpl. auto.
  - destruct (update_one_in _ _ _). eexists. reflexivity.
  - destruct (update_one_in _ _ _) as [us' res]. simpl.
    intros H. apply Z.ltb_lt in H. by rewrite H.
  - intros Hquiet. rewrite Hquiet.
    destruct (update_one_in_found _ set_role_admin _ _ Hfind)
      as (i & Hi & _ & Hupd).
    rewrite Hupd, (bool_decide_eq_false_2 _ (set_role_admin_changes d Hrole)).
    split; [reflexivity|]. exists i. split; [exact Hi|].
    rewrite <- apply_set_role_admin. reflexivity.
Qed.

Lemma absent_role_is_elevated_witness :
  configured (sample_world calm) "mongodb://localhost:27017/intellaclick"
  ∧ lookup_returns (sample_world calm)
  ∧ find_one_in (email_filter "New.Instructor@test.com")
      (users (sample_world calm)) = Some roleless_doc
  ∧ roleless_doc !! "role" = None
  ∧ (make_admin "New.Instructor@test.com" (sample_world calm)).1 = Ret true.
Proof.
  assert (Hc : configured (sample_world calm)
                 "mongodb://localhost:27017/intellaclick")
    by (split; [reflexivity | discriminate]).
  assert (Hl : lookup_returns (sample_world calm))
    by (repeat split; reflexivity).
  assert (Hf : find_one_in (email_filter "New.Instructor@test.com")
                 (users (sample_world calm)) = Some roleless_doc)
    by (vm_compute; reflexivity).
  assert (Hr : roleless_doc !! "role" = None) by (vm_compute; reflexivity).
  repeat (split; [assumption|]).
  exact (proj1 (proj2 (proj2 (proj2 (proj2
           (absent_role_is_elevated "New.Instructor@test.com" _ _ _
              Hc Hl eq_refl Hf Hr)))) eq_refl)).
Defined.

(** ** Exceptions, the connection and the exit code *)

(** An [Exception] that leaves the [try] body ends in the handler: the
    message is printed and the call returns [False]. *)
Lemma body_raise_caught (email : string) (w : World) (e : py_exn) (s : State) :
  make_admin_body email (mkState w (mkLocals None)) = (Raise e, s) →
  is_Exception e = true →
  (make_admin email w).1 = Ret false
  ∧ stdout (make_admin email w).2
    = stdout (world s) ++ ["Error: " +:+ exn_str e].
Proof.
  intros Hbody He. unfold make_admin, try_except_finally.
  rewrite Hbody, He. destruct s as [ws [[[]|]]]; exec; split; reflexivity.
Qed.

(** The body raises nothing of its own: what leaves it was raised by one
    of the four client calls. *)
Lemma body_raise_from_fate (email : string) (w : World) (e : py_exn) (s : State) :
  make_admin_body email (mkState w (mkLocals None)) = (Raise e, s) →
  MongoClient_raises (fate w) = Some e
  ∨ get_default_database_raises (fate w) = Some e
  ∨ find_one_raises (fate w) = Some e
  ∨ update_one_raises (fate w) = Some e.
Proof.
  destruct w as [env us oc out cs [f1 f2 f3 f4 f5]]. simpl.
  cbv beta iota zeta delta
    [make_admin_body mbind mret Stmt_bind Stmt_ret bind ret os_getenv
     get_world MongoClient assign_client get_default_database find_one
     update_one close print log_call on_world may_raise world frame client
     environ users open_clients stdout calls fate MongoClient_raises
     get_default_database_raises find_one_raises concurrent_writers
     update_one_raises].
  destruct (negb (truthy_str (env !! "MONGODB_URI"))); [discriminate|].
  destruct f1 as [e1|]; [intros [= <- _]; auto|].
  destruct f2 as [e2|]; [intros [= <- _]; auto|].
  destruct f3 as [e3|]; [intros [= <- _]; auto|].
  destruct (negb (truthy_doc _)); [discriminate|].
  destruct (bool_decide _); [discriminate|].
  destruct f5 as [e5|]; [intros [= <- _]; auto|].
  destruct (update_one_in _ _ _) as [us' res].
  destruct (0 <? modified_count res); discriminate.
Qed.

Lemma failure_returns_False (email : string) (w : World) :
  Failure email w → (make_admin email w).1 = Ret false.
Proof.
  intros [H|e s Hbody He|uri Hc Hl Hfind|uri d Hc Hl Hfind Hrole Hup Hn].
  - by rewrite (run_no_config email w H).
  - exact (proj1 (body_raise_caught email w e s Hbody He)).
  - by rewrite (run_not_found email w uri Hc Hl Hfind).
  - rewrite (run_update_one email w uri d Hc Hl Hfind Hrole Hup).
    destruct (update_one_in _ _ _) as [us' res]. simpl in *. by rewrite Hn.
Qed.

Lemma acquired_configured (w : World) (uri : string) :
  configured w uri →
  acquired w
  = match MongoClient_raises (fate w) with None => true | Some _ => false end.
Proof.
  intros [Henv Huri]. unfold acquired.
  by rewrite Henv, (truthy_str_Some _ Huri).
Qed.

(** C7 (exit code).  The process exits with 0 exactly when an email was
    given and [make_admin] returned [True]; whenever [make_admin] returns
    [False] it exits with 1, which covers the missing configuration, an
    error of the client, the unknown user and the update that modified
    nothing.  Without an email argument it prints the two usage lines,
    exits with 1 and calls nothing: no connection is attempted. *)
Theorem exit_code_reflects_outcome (argv : list string) (w : World) :
  ((main argv w).1 = Exit 0
   ↔ (2 ≤ length argv)%nat ∧ (make_admin (nth 1 argv "") w).1 = Ret true)
  ∧ ((2 ≤ length argv)%nat →
     (make_admin (nth 1 argv "") w).1 = Ret false →
     (main argv w).1 = Exit 1)
  ∧ ((2 ≤ length argv)%nat →
     Failure (nth 1 argv "") w →
     (main argv w).1 = Exit 1)
  ∧ ((length argv < 2)%nat →
     (main argv w).1 = Exit 1
     ∧ stdout (main argv w).2
       = stdout w ++ ["Usage: python3 make-admin.py <email>";
                      "Example: python3 make-admin.py mostafa.afifi77@gmail.com"]
     ∧ calls (main argv w).2 = calls w
     ∧ open_clients (main argv w).2 = open_clients w
     ∧ users (main argv w).2 = users w).
Proof.
  assert (Hret : (2 ≤ length argv)%nat →
                 (make_admin (nth 1 argv "") w).1 = Ret false →
                 (main argv w).1 = Exit 1).
  { intros Hlen Hfalse. unfold main.
    destruct (Nat.ltb_spec (length argv) 2) as [Hlt|_]; [lia|].
    destruct (make_admin (nth 1 argv "") w) as [r w']. simpl in Hfalse.
    by subst r. }
  split; [|split; [|split]].
  - unfold main. destruct (Nat.ltb_spec (length argv) 2) as [Hlt|Hge].
    + simpl. split; [discriminate | intros [Hlen _]; lia].
    + destruct (make_admin (nth 1 argv "") w) as [[[]|e] w']; simpl;
        split; try discriminate; try (intros [_ [=]]); auto.
  - exact Hret.
  - intros Hlen Hfail. apply Hret; [exact Hlen|].
    by apply failure_returns_False.
  - intros Hlt. unfold main.
    destruct (Nat.ltb_spec (length argv) 2) as [_|Hge]; [|lia].
    destruct w. simpl. rewrite <- app_assoc. repeat split.
Qed.

(** C8 (release).  On every way out of [make_admin], with a value or with
    an exception the handler does not take, as many clients are open as
    before the call.  If a client object came into being, the run made one
    connection, closed it once, and the close is the last client call; if
    none did, nothing is closed. *)
Theorem connection_always_released (email : string) (w : World) :
  open_clients (make_admin email w).2 = open_clients w
  ∧ ∃ new : list Call,
      calls (make_admin email w).2 = calls w ++ new
      ∧ if acquired w then
          last new = Some CClose
          ∧ length (List.filter is_close new) = 1%nat
          ∧ length (List.filter is_connect new) = 1%nat
        else List.filter is_close new = [].
Proof.
  destruct (make_admin_path email w)
    as [H|u e Hc H|u e Hc H1 H|u e Hc H1 H2 H|u Hc [H1 _] H
       |u d Hc [H1 _] _ _|u d e Hc [H1 _] _ _ _|u d Hc [H1 _] _ _ _].
  - split; [reflexivity|]. exists []. split; [reflexivity|].
    unfold acquired. by rewrite H.
  - split; [reflexivity|]. eexists. split; [reflexivity|].
    by rewrite (acquired_configured w u Hc), H.
  - split; [reflexivity|]. eexists. split; [reflexivity|].
    rewrite (acquired_configured w u Hc), H1. repeat split.
  - split; [reflexivity|]. eexists. split; [reflexivity|].
    rewrite (acquired_configured w u Hc), H1. repeat split.
  - split; [reflexivity|]. eexists. split; [reflexivity|].
    rewrite (acquired_configured w u Hc), H1. repeat split.
  - split; [reflexivity|]. eexists. split; [reflexivity|].
    rewrite (acquired_configured w u Hc), H1. repeat split.
  - split; [reflexivity|]. eexists. split; [reflexivity|].
    rewrite (acquired_configured w u Hc), H1. repeat split.
  - destruct (update_one_in _ _ _) as [us' res].
    split; [reflexivity|]. eexists. split; [reflexivity|].
    rewrite (acquired_configured w u Hc), H1. repeat split.
Qed.

(** C9 (errors are caught).  When what the client calls raise are
    instances of [Exception], as every error of the database client is,
    [make_admin] always returns a value.  An exception that leaves the
    [try] body is turned into the printed line ["Error: "] followed by its
    message and the result [False], and the process then exits with code 1
    instead of ending on an uncaught exception. *)
Theorem client_errors_are_caught (email : string) (w : World) :
  raises_only_Exception (fate w) →
  (∃ b, (make_admin email w).1 = Ret b)
  ∧ (∀ e s,
       make_admin_body email (mkState w (mkLocals None)) = (Raise e, s) →
       (make_admin email w).1 = Ret false
       ∧ stdout (make_admin email w).2
         = stdout (world s) ++ ["Error: " +:+ exn_str e]
       ∧ ∀ prog, (main [prog; email] w).1 = Exit 1)
  ∧ (∀ prog,
       (main [prog; email] w).1 = Exit 0 ∨ (main [prog; email] w).1 = Exit 1).
Proof.
  intros Hexn.
  assert (Hval : ∃ b, (make_admin email w).1 = Ret b).
  { destruct (make_admin_path email w)
      as [H|u e Hc H|u e Hc H1 H|u e Hc H1 H2 H|u Hc Hl H
         |u d Hc Hl _ _|u d e Hc Hl _ _ H|u d Hc Hl _ _ _];
      try (eexists; reflexivity);
      try (unfold handled; rewrite (Hexn e) by auto; eexists; reflexivity).
    destruct (update_one_in _ _ _). eexists. reflexivity. }
  split; [exact Hval|]. split.
  - intros e s Hbody.
    assert (He : is_Exception e = true)
      by (apply Hexn, (body_raise_from_fate email w e s Hbody)).
    destruct (body_raise_caught email w e s Hbody He) as [Hfalse Hout].
    split; [exact Hfalse|]. split; [exact Hout|].
    intros prog. unfold main. simpl.
    destruct (make_admin email w) as [r w']. simpl in Hfalse. by subst r.
  - intros prog. destruct Hval as [b Hb]. unfold main. simpl.
    destruct (make_admin email w) as [r w']. simpl in Hb. subst r.
    destruct b; auto.
Qed.

Lemma client_errors_are_caught_witness :
  raises_only_Exception (fate (sample_world unreachable))
  ∧ (make_admin "user@example.com" (sample_world unreachable)).1 = Ret false
  ∧ (main ["make-admin.py"; "user@example.com"] (sample_world unreachable)).1
    = Exit 1.
Proof.
  assert (Hexn : raises_only_Exception (fate (sample_world unreachable))).
  { intros e [H|[H|[H|H]]]; simpl in H; try discriminate H.
    injection H as <-. reflexivity. }
  split; [exact Hexn|].
  pose proof (proj1 (proj2
    (client_errors_are_caught "user@example.com" _ Hexn))) as Hcaught.
  edestruct (Hcaught timeout) as (H1 & _ & H3).
  { vm_compute. reflexivity. }
  exact (conj H1 (H3 "make-admin.py")).
Defined.

(** ** The scenarios of the specification, run *)

(** A stored instructor is promoted under a differently cased address. *)
Example scenario_promote :
  let run := main ["make-admin.py"; "User@Example.com"] (sample_world calm) in
  run.1 = Exit 0
  ∧ users run.2
    = [admin_doc; <[ "role" := VStr "admin" ]> instructor_doc; roleless_doc]
  ∧ open_clients run.2 = 0%nat.
Proof. vm_compute. repeat split. Qed.

(** An admin stays as stored and nothing is written. *)
Example scenario_already_admin :
  let run := main ["make-admin.py"; "admin.already@test.com"] (sample_world calm) in
  run.1 = Exit 0
  ∧ users run.2 = users (sample_world calm)
  ∧ List.filter is_write (calls run.2) = [].
Proof. vm_compute. repeat split. Qed.

(** An unknown address: exit code 1, nothing written. *)
Example scenario_missing_user :
  let run := main ["make-admin.py"; "missing@test.com"] (sample_world calm) in
  run.1 = Exit 1
  ∧ users run.2 = users (sample_world calm)
  ∧ List.filter is_write (calls run.2) = [].
Proof. vm_compute. repeat split. Qed.

(** No argument: usage, exit code 1, no client call. *)
Example scenario_no_argument :
  let run := main ["make-admin.py"] (sample_world calm) in
  run.1 = Exit 1 ∧ calls run.2 = [] ∧ length (stdout run.2) = 2%nat.
Proof. vm_compute. repeat split. Qed.

(** No connection string: exit code 1, no client call. *)
Example scenario_no_config :
  let run := main ["make-admin.py"; "user@example.com"] unconfigured_world in
  run.1 = Exit 1 ∧ calls run.2 = [].
Proof. vm_compute. repeat split. Qed.

(** An empty connection string counts as a missing one (line 14). *)
Example scenario_empty_config :
  let w := mkWorld {[ "MONGODB_URI" := "" ]} [instructor_doc] 0 [] [] calm in
  make_admin "user@example.com" w
  = (Ret false,
     after w (users w) ["❌ MONGODB_URI not found in .env file"] []).
Proof. vm_compute. reflexivity. Qed.

(** The record vanishes between the read and the write: the update
    modifies nothing and the exit code is 1. *)
Example scenario_race :
  let run := main ["make-admin.py"; "user@example.com"] (sample_world racing) in
  run.1 = Exit 1
  ∧ last (stdout run.2) = Some "❌ Failed to update user"
  ∧ length (List.filter is_write (calls run.2)) = 1%nat.
Proof. vm_compute. repeat split. Qed.

(** What is not an [Exception] passes the handler by, and the client is
    closed all the same. *)
Example scenario_interrupt :
  let run := main ["make-admin.py"; "user@example.com"] (sample_world interrupted) in
  run.1 = Uncaught (mkExn false "KeyboardInterrupt")
  ∧ last (calls run.2) = Some CClose
  ∧ open_clients run.2 = 0%nat.
Proof. vm_compute. repeat split. Qed.

(** ** Further facts about lowercasing and the collection *)

Lemma lower_ascii_idempotent (c : ascii) :
  lower_ascii (lower_ascii c) = lower_ascii c.
Proof. destruct c as [[] [] [] [] [] [] [] []]; reflexivity. Qed.

Lemma lower_idempotent (s : string) : lower (lower s) = lower s.
Proof.
  induction s as [|c r IH]; simpl; [reflexivity|].
  by rewrite lower_ascii_idempotent, IH.
Qed.

Lemma email_filter_lower (e1 e2 : string) :
  lower e1 = lower e2 → email_filter e1 = email_filter e2.
Proof. unfold email_filter. by intros ->. Qed.

(** Setting the role does not touch the email, so a document matches the
    email filter after the update exactly if it did before. *)
Lemma matches_after_set_role (email : string) (d : Doc) :
  matches (email_filter email) (apply_update set_role_admin d)
  = matches (email_filter email) d.
Proof.
  rewrite !matches_email_filter, apply_set_role_admin_other; [reflexivity|].
  discriminate.
Qed.

Lemma find_after_update (email : string) (c : Collection) :
  find_one_in (email_filter email)
    (update_one_in (email_filter email) set_role_admin c).1
  = apply_update set_role_admin <$> find_one_in (email_filter email) c.
Proof.
  induction c as [|x r IH]; [reflexivity|].
  cbn [update_one_in find_one_in].
  destruct (matches (email_filter email) x) eqn:Hm.
  - cbn [fst find_one_in]. by rewrite matches_after_set_role, Hm.
  - destruct (update_one_in (email_filter email) set_role_admin r) as [r' res].
    cbn [fst find_one_in] in *. by rewrite Hm.
Qed.

Lemma unmodified_unchanged (flt : Doc) (u : Update) (c : Collection) :
  modified_count (update_one_in flt u c).2 = 0 →
  (update_one_in flt u c).1 = c.
Proof.
  induction c as [|x r IH]; [reflexivity|]. cbn [update_one_in].
  destruct (matches flt x).
  - cbn [fst snd modified_count]. case_bool_decide as Heq; [|discriminate].
    intros _. by rewrite Heq.
  - destruct (update_one_in flt u r) as [r' res]. cbn [fst snd] in *.
    intros H. by rewrite (IH H).
Qed.

Lemma modified_found (flt : Doc) (u : Update) (c : Collection) :
  0 < modified_count (update_one_in flt u c).2 →
  ∃ d, find_one_in flt c = Some d.
Proof.
  destruct (find_one_in flt c) as [d|] eqn:Hfind; [eauto|].
  rewrite (update_one_in_missing flt u c Hfind). simpl. lia.
Qed.

(** A document the filter does not match stays where it is. *)
Lemma update_one_in_skips (flt : Doc) (u : Update) (c : Collection)
    (i : nat) (d : Doc) :
  c !! i = Some d → matches flt d = false →
  (update_one_in flt u c).1 !! i = Some d.
Proof.
  revert i. induction c as [|x r IH]; intros i Hi Hm; [discriminate|].
  cbn [update_one_in]. destruct (matches flt x) eqn:Hx.
  - destruct i as [|i]; simpl in *; [|exact Hi]. congruence.
  - destruct (update_one_in flt u r) as [r' res] eqn:Hr. cbn [fst] in *.
    destruct i as [|i]; simpl in *; [exact Hi|]. by apply IH.
Qed.


(** What a successful run leaves behind. *)
Lemma success_facts (email : string) (w : World) :
  (make_admin email w).1 = Ret true →
  ∃ (uri : string) (d : Doc),
    configured w uri ∧ lookup_returns w
    ∧ environ (make_admin email w).2 = environ w
    ∧ fate (make_admin email w).2 = fate w
    ∧ find_one_in (email_filter email) (users (make_admin email w).2) = Some d
    ∧ d !! "role" = Some (VStr "admin").
Proof.
  destruct (make_admin_path email w)
    as [H|u e Hc H|u e Hc H1 H|u e Hc H1 H2 H|u Hc Hl H
       |u d Hc Hl Hf Hr|u d e Hc Hl Hf Hr H|u d Hc Hl Hf Hr H];
    try discriminate;
    try (unfold handled; destruct (is_Exception e); discriminate).
  - intros _. exists u, d. repeat split; assumption || apply Hc || apply Hl.
  - destruct (update_one_in _ _ _) as [us' res] eqn:Hup. intros [= Hn].
    apply Z.ltb_lt in Hn.
    pose proof (find_after_update email
                  (concurrent_writers (fate w) (users w))) as Hafter.
    destruct (modified_found (email_filter email) set_role_admin
                (concurrent_writers (fate w) (users w))) as [d1 Hd1].
    { by rewrite Hup. }
    rewrite Hup, Hd1 in Hafter. simpl in Hafter.
    exists u, (apply_update set_role_admin d1).
    repeat split; try (assumption || apply Hc || apply Hl).
    rewrite apply_set_role_admin. apply lookup_insert_eq.
Qed.

(** ** Further properties of the script *)

(** X1 (empty connection string).  Line 14 tests the truth value of what
    [os.getenv] returns, so a variable that is set to the empty string
    counts as missing: the call returns [False] with the same message and
    no client call is made. *)
Theorem empty_config_counts_as_missing (email : string) (w : World) :
  environ w !! "MONGODB_URI" = Some "" →
  (make_admin email w).1 = Ret false
  ∧ calls (make_admin email w).2 = calls w
  ∧ users (make_admin email w).2 = users w
  ∧ stdout (make_admin email w).2
    = stdout w ++ ["❌ MONGODB_URI not found in .env file"].
Proof.
  intros Henv.
  rewrite (run_no_config email w) by (rewrite Henv; reflexivity).
  unfold after. simpl. rewrite app_nil_r. repeat split.
Qed.

Lemma empty_config_counts_as_missing_witness :
  environ empty_uri_world !! "MONGODB_URI" = Some ""
  ∧ (make_admin "user@example.com" empty_uri_world).1 = Ret false
  ∧ calls (make_admin "user@example.com" empty_uri_world).2 = [].
Proof.
  assert (He : environ empty_uri_world !! "MONGODB_URI" = Some "")
    by reflexivity.
  split; [exact He|].
  pose proof (empty_config_counts_as_missing "user@example.com" _ He)
    as (H1 & H2 & _).
  exact (conj H1 H2).
Defined.

(** X2 (call protocol).  Whatever the environment, the collection and
    fate, a run adds to the call log either nothing or one of four
    sequences that start with the connection under the URI of the
    environment and the 5000 ms timeout: the connection alone when it
    raises, otherwise a sequence that ends in the close.  So there is at
    most one lookup and one update per run, no update without the lookup
    before it, and no call after the close. *)
Theorem calls_follow_protocol (email : string) (w : World) :
  ∃ new : list Call,
    calls (make_admin email w).2 = calls w ++ new
    ∧ (new = []
       ∨ ∃ uri, environ w !! "MONGODB_URI" = Some uri
                ∧ In new (call_shapes email uri))
    ∧ (length (List.filter is_write new) ≤ 1)%nat.
Proof.
  destruct (make_admin_path email w)
    as [H|u e [Hc _] H|u e [Hc _] H1 H|u e [Hc _] H1 H2 H|u [Hc _] Hl H
       |u d [Hc _] Hl Hf Hr|u d e [Hc _] Hl Hf Hr H|u d [Hc _] Hl Hf Hr H];
    try (destruct (update_one_in _ _ _) as [us' res]);
    (eexists; split; [reflexivity|]; split; [|simpl; lia]).
  - by left.
  - right. exists u. split; [exact Hc|]. simpl. auto.
  - right. exists u. split; [exact Hc|]. simpl. auto.
  - right. exists u. split; [exact Hc|]. simpl. auto.
  - right. exists u. split; [exact Hc|]. simpl. auto.
  - right. exists u. split; [exact Hc|]. simpl. auto.
  - right. exists u. split; [exact Hc|]. simpl. auto 6.
  - right. exists u. split; [exact Hc|]. simpl. auto 6.
Qed.


(** X4 (postcondition of success).  Whenever [make_admin] returns [True],
    by either of its two successful ways and whatever other writers did,
    the first record under the lowercased email in the collection it
    leaves behind has role ["admin"]. *)
Theorem success_means_admin (email : string) (w : World) :
  (make_admin email w).1 = Ret true →
  ∃ d : Doc,
    find_one_in {[ "email" := VStr (lower email) ]}
      (users (make_admin email w).2) = Some d
    ∧ d !! "role" = Some (VStr "admin").
Proof.
  intros H. destruct (success_facts email w H) as (u & d & _ & _ & _ & _ & Hd).
  exists d. exact Hd.
Qed.

Lemma success_means_admin_witness :
  (make_admin "New.Instructor@test.com" (sample_world calm)).1 = Ret true
  ∧ ∃ d : Doc,
      find_one_in {[ "email" := VStr (lower "New.Instructor@test.com") ]}
        (users (make_admin "New.Instructor@test.com" (sample_world calm)).2)
      = Some d
      ∧ d !! "role" = Some (VStr "admin").
Proof.
  assert (H : (make_admin "New.Instructor@test.com" (sample_world calm)).1
              = Ret true) by (vm_compute; reflexivity).
  split; [exact H|].
  exact (success_means_admin "New.Instructor@test.com" _ H).
Defined.

(** X5 (running it again).  After a run that returned [True], a second run
    for the same email in the world the first one left returns [True]
    again through the already-admin branch: it changes nothing in the
    collection and makes no update call. *)
Theorem second_run_writes_nothing (email : string) (w : World) :
  (make_admin email w).1 = Ret true →
  (make_admin email (make_admin email w).2).1 = Ret true
  ∧ users (make_admin email (make_admin email w).2).2
    = users (make_admin email w).2
  ∧ ∃ uri,
      calls (make_admin email (make_admin email w).2).2
      = calls (make_admin email w).2
        ++ [CMongoClient uri 5000; CGetDefaultDatabase;
            CFindOne (email_filter email); CClose].
Proof.
  intros H.
  destruct (success_facts email w H)
    as (u & d & [Hc1 Hc2] & Hl & Henv & Hfate & Hfind & Hrole).
  assert (Hc' : configured (make_admin email w).2 u)
    by (split; [by rewrite Henv | exact Hc2]).
  assert (Hl' : lookup_returns (make_admin email w).2)
    by (unfold lookup_returns; by rewrite Hfate).
  rewrite (run_already_admin email _ u d Hc' Hl' Hfind Hrole).
  split; [reflexivity|]. split; [reflexivity|]. exists u. reflexivity.
Qed.

Lemma second_run_writes_nothing_witness :
  (make_admin "User@Example.com" (sample_world calm)).1 = Ret true
  ∧ (make_admin "User@Example.com"
       (make_admin "User@Example.com" (sample_world calm)).2).1 = Ret true
  ∧ users (make_admin "User@Example.com"
             (make_admin "User@Example.com" (sample_world calm)).2).2
    = users (make_admin "User@Example.com" (sample_world calm)).2.
Proof.
  assert (H : (make_admin "User@Example.com" (sample_world calm)).1
              = Ret true) by (vm_compute; reflexivity).
  split; [exact H|].
  pose proof (second_run_writes_nothing "User@Example.com" _ H)
    as (H1 & H2 & _).
  exact (conj H1 H2).
Defined.

(** X6 (a failed run writes nothing).  When the update call does not
    raise and [make_admin] returns [False], the script has changed no
    document: the collection is as it was before the run or, if the update
    was reached, exactly as the other writers left it. *)
Theorem failure_changes_nothing (email : string) (w : World) :
  update_one_raises (fate w) = None →
  (make_admin email w).1 = Ret false →
  users (make_admin email w).2 = users w
  ∨ users (make_admin email w).2 = concurrent_writers (fate w) (users w).
Proof.
  intros Hup.
  destruct (make_admin_path email w)
    as [H|u e Hc H|u e Hc H1 H|u e Hc H1 H2 H|u Hc Hl H
       |u d Hc Hl Hf Hr|u d e Hc Hl Hf Hr H|u d Hc Hl Hf Hr H];
    try (intros _; left; reflexivity).
  pose proof (unmodified_unchanged (email_filter email) set_role_admin
                (concurrent_writers (fate w) (users w))) as Hsame.
  pose proof (modified_count_range (email_filter email) set_role_admin
                (concurrent_writers (fate w) (users w))) as Hrange.
  destruct (update_one_in _ _ _) as [us' res]. simpl in *.
  intros [= Hn]. apply Z.ltb_ge in Hn. right. apply Hsame. lia.
Qed.

Lemma failure_changes_nothing_witness :
  update_one_raises (fate (sample_world racing)) = None
  ∧ (make_admin "user@example.com" (sample_world racing)).1 = Ret false
  ∧ (users (make_admin "user@example.com" (sample_world racing)).2
     = users (sample_world racing)
     ∨ users (make_admin "user@example.com" (sample_world racing)).2
       = concurrent_writers (fate (sample_world racing))
           (users (sample_world racing))).
Proof.
  assert (H : (make_admin "user@example.com" (sample_world racing)).1
              = Ret false) by (vm_compute; reflexivity).
  split; [reflexivity|]. split; [exact H|].
  exact (failure_changes_nothing "user@example.com" (sample_world racing)
           eq_refl H).
Defined.

(** X7 (the case of the argument does not matter).  Two spellings of an
    email with the same lowercase form give the same result, the same
    collection, the same client calls and the same number of open
    clients; only the printed lines quote the argument as it was typed. *)
Theorem spelling_is_irrelevant (e1 e2 : string) (w : World) :
  lower e1 = lower e2 →
  (make_admin e1 w).1 = (make_admin e2 w).1
  ∧ users (make_admin e1 w).2 = users (make_admin e2 w).2
  ∧ calls (make_admin e1 w).2 = calls (make_admin e2 w).2
  ∧ open_clients (make_admin e1 w).2 = open_clients (make_admin e2 w).2.
Proof.
  intros Heq. pose proof (email_filter_lower e1 e2 Heq) as Hflt.
  destruct (make_admin_path e1 w)
    as [H|u e Hc H|u e Hc H1 H|u e Hc H1 H2 H|u Hc Hl H
       |u d Hc Hl Hf Hr|u d e Hc Hl Hf Hr H|u d Hc Hl Hf Hr H];
    rewrite ?Hflt in *.
  - by rewrite (run_no_config e2 w H).
  - by rewrite (run_MongoClient_raises e2 w u e Hc H).
  - by rewrite (run_get_default_database_raises e2 w u e Hc H1 H).
  - by rewrite (run_find_one_raises e2 w u e Hc H1 H2 H).
  - by rewrite (run_not_found e2 w u Hc Hl H).
  - by rewrite (run_already_admin e2 w u d Hc Hl Hf Hr).
  - by rewrite (run_update_one_raises e2 w u d e Hc Hl Hf Hr H).
  - rewrite (run_update_one e2 w u d Hc Hl Hf Hr H).
    by destruct (update_one_in _ _ _).
Qed.

Lemma spelling_is_irrelevant_witness :
  lower "USER@example.COM" = lower "user@Example.com"
  ∧ (make_admin "USER@example.COM" (sample_world calm)).1
    = (make_admin "user@Example.com" (sample_world calm)).1
  ∧ users (make_admin "USER@example.COM" (sample_world calm)).2
    = users (make_admin "user@Example.com" (sample_world calm)).2.
Proof.
  assert (H : lower "USER@example.COM" = lower "user@Example.com")
    by reflexivity.
  split; [exact H|].
  pose proof (spelling_is_irrelevant _ _ (sample_world calm) H)
    as (H1 & H2 & _).
  exact (conj H1 H2).
Defined.

(** X8 (records stored in mixed case are out of reach).  The filter
    compares the stored address with the lowercased argument as it is, so
    a record whose stored email is not already lowercase is matched by no
    argument at all: as long as the other writers leave it in place, it is
    in the same place with the same fields after any run. *)
Theorem mixed_case_record_untouched (email stored : string) (w : World)
    (i : nat) (d : Doc) :
  d !! "email" = Some (VStr stored) →
  lower stored ≠ stored →
  users w !! i = Some d →
  concurrent_writers (fate w) (users w) !! i = Some d →
  users (make_admin email w).2 !! i = Some d
  ∧ find_one_in (email_filter email) [d] = None.
Proof.
  intros Hemail Hmixed Hi Hi'.
  assert (Hm : matches (email_filter email) d = false).
  { rewrite matches_email_filter. apply bool_decide_eq_false_2.
    rewrite Hemail. intros [= ->]. apply Hmixed, lower_idempotent. }
  split; [|by simpl; rewrite Hm].
  destruct (make_admin_path email w)
    as [H|u e Hc H|u e Hc H1 H|u e Hc H1 H2 H|u Hc Hl H
       |u d0 Hc Hl Hf Hr|u d0 e Hc Hl Hf Hr H|u d0 Hc Hl Hf Hr H];
    try exact Hi.
  pose proof (update_one_in_skips (email_filter email) set_role_admin
                _ i d Hi' Hm) as Hskip.
  destruct (update_one_in _ _ _) as [us' res]. exact Hskip.
Qed.

Lemma mixed_case_record_untouched_witness :
  mixed_case_doc !! "email" = Some (VStr "Grace@Example.com")
  ∧ lower "Grace@Example.com" ≠ "Grace@Example.com"
  ∧ users mixed_case_world !! 0%nat = Some mixed_case_doc
  ∧ users (make_admin "Grace@Example.com" mixed_case_world).2 !! 0%nat
    = Some mixed_case_doc.
Proof.
  assert (H1 : mixed_case_doc !! "email" = Some (VStr "Grace@Example.com"))
    by (vm_compute; reflexivity).
  assert (H2 : lower "Grace@Example.com" ≠ "Grace@Example.com")
    by (vm_compute; discriminate).
  assert (H3 : users mixed_case_world !! 0%nat = Some mixed_case_doc)
    by reflexivity.
  repeat (split; [assumption|]).
  exact (proj1 (mixed_case_record_untouched "Grace@Example.com" _
                  mixed_case_world 0 _ H1 H2 H3 H3)).
Defined.

(** X9 (a lost race is reported as a failure).  When the record found is
    not an admin but another writer has made it one by the time the update
    arrives, the update modifies nothing: the call returns [False] with the
    update-failed message and the process exits with 1, although the record
    the email designates has role ["admin"] in the collection left
    behind. *)
Theorem lost_race_reports_failure (email uri : string) (w : World)
    (d d1 : Doc) :
  configured w uri → lookup_returns w →
  update_one_raises (fate w) = None →
  find_one_in (email_filter email) (users w) = Some d →
  d !! "role" ≠ Some (VStr "admin") →
  find_one_in (email_filter email) (concurrent_writers (fate w) (users w))
  = Some d1 →
  d1 !! "role" = Some (VStr "admin") →
  (make_admin email w).1 = Ret false
  ∧ last (stdout (make_admin email w).2) = Some "❌ Failed to update user"
  ∧ users (make_admin email w).2 = concurrent_writers (fate w) (users w)
  ∧ find_one_in (email_filter email) (users (make_admin email w).2) = Some d1
  ∧ ∀ prog, (main [prog; email] w).1 = Exit 1.
Proof.
  intros Hc Hl Hup Hfind Hrole Hfind1 Hrole1.
  assert (Hrun := run_update_one email w uri d Hc Hl Hfind Hrole Hup).
  destruct (update_one_in_found _ set_role_admin _ _ Hfind1)
    as (i & Hi & _ & Hupd).
  assert (Hid : apply_update set_role_admin d1 = d1)
    by (rewrite apply_set_role_admin; by apply insert_id).
  rewrite Hid, bool_decide_eq_true_2, (list_insert_id _ _ _ Hi) in Hupd
    by reflexivity.
  rewrite Hupd in Hrun. simpl in Hrun.
  assert (Hfalse : (make_admin email w).1 = Ret false) by (by rewrite Hrun).
  split; [exact Hfalse|]. split; [|split; [|split]].
  - rewrite Hrun. simpl. rewrite last_app. reflexivity.
  - by rewrite Hrun.
  - by rewrite Hrun.
  - intros prog. unfold main. simpl.
    destruct (make_admin email w) as [r w']. simpl in Hfalse. by subst r.
Qed.

Lemma lost_race_reports_failure_witness :
  configured (sample_world promoting) "mongodb://localhost:27017/intellaclick"
  ∧ lookup_returns (sample_world promoting)
  ∧ find_one_in (email_filter "user@example.com")
      (users (sample_world promoting)) = Some instructor_doc
  ∧ instructor_doc !! "role" ≠ Some (VStr "admin")
  ∧ (make_admin "user@example.com" (sample_world promoting)).1 = Ret false
  ∧ find_one_in (email_filter "user@example.com")
      (users (make_admin "user@example.com" (sample_world promoting)).2)
    = Some (<[ "role" := VStr "admin" ]> instructor_doc).
Proof.
  assert (Hc : configured (sample_world promoting)
                 "mongodb://localhost:27017/intellaclick")
    by (split; [reflexivity | discriminate]).
  assert (Hl : lookup_returns (sample_world promoting))
    by (repeat split; reflexivity).
  assert (Hf : find_one_in (email_filter "user@example.com")
                 (users (sample_world promoting)) = Some instructor_doc)
    by (vm_compute; reflexivity).
  assert (Hr : instructor_doc !! "role" ≠ Some (VStr "admin"))
    by (vm_compute; discriminate).
  repeat (split; [assumption|]).
  assert (Hf1 : find_one_in (email_filter "user@example.com")
                  (concurrent_writers (fate (sample_world promoting))
                     (users (sample_world promoting)))
                = Some (<[ "role" := VStr "admin" ]> instructor_doc))
    by (vm_compute; reflexivity).
  assert (Hr1 : <[ "role" := VStr "admin" ]> instructor_doc !! "role"
                = Some (VStr "admin")) by (vm_compute; reflexivity).
  pose proof (lost_race_reports_failure "user@example.com" _ _ _ _
                Hc Hl eq_refl Hf Hr Hf1 Hr1) as (H1 & _ & _ & H4 & _).
  exact (conj H1 H4).
Defined.

(** X10 (no silent return).  Whatever happens, a run only appends to what
    was printed before, and every run that returns a value, [True] or
    [False], has printed at least one line. *)
Theorem every_return_is_announced (email : string) (w : World) :
  ∃ printed : list string,
    stdout (make_admin email w).2 = stdout w ++ printed
    ∧ ∀ b, (make_admin email w).1 = Ret b → printed ≠ [].
Proof.
  destruct (make_admin_path email w)
    as [H|u e Hc H|u e Hc H1 H|u e Hc H1 H2 H|u Hc Hl H
       |u d Hc Hl Hf Hr|u d e Hc Hl Hf Hr H|u d Hc Hl Hf Hr H];
    try (destruct (update_one_in _ _ _) as [us' res]);
    (eexists; split; [reflexivity|]); intros b; try discriminate.
  - unfold handled, diagnostic. destruct (is_Exception e); discriminate.
  - unfold handled, diagnostic. destruct (is_Exception e); discriminate.
Qed.

Lemma run_keeps_open_clients (email : string) (w : World) :
  open_clients (make_admin email w).2 = open_clients w.
Proof.
  destruct (make_admin_path email w);
    try (destruct (update_one_in _ _ _)); reflexivity.
Qed.

(** X11 (what the handler lets through).  The handler is [except
    Exception]: an exception that is not an instance of [Exception], such
    as [KeyboardInterrupt], leaves [make_admin] as it came, with no
    ["Error: "] line printed for it, and ends the process uncaught instead
    of through [sys.exit]; the [finally] block has still run, so no client
    stays open. *)
Theorem non_Exception_propagates (email : string) (w : World)
    (e : py_exn) (s : State) :
  make_admin_body email (mkState w (mkLocals None)) = (Raise e, s) →
  is_Exception e = false →
  (make_admin email w).1 = Raise e
  ∧ stdout (make_admin email w).2 = stdout (world s)
  ∧ open_clients (make_admin email w).2 = open_clients w
  ∧ ∀ prog, (main [prog; email] w).1 = Uncaught e.
Proof.
  intros Hbody He.
  assert (Hrun : (make_admin email w).1 = Raise e
                 ∧ stdout (make_admin email w).2 = stdout (world s)).
  { unfold make_admin, try_except_finally. rewrite Hbody, He.
    destruct s as [ws [[[]|]]]; exec; split; reflexivity. }
  destruct Hrun as [Hraise Hout].
  split; [exact Hraise|]. split; [exact Hout|].
  split; [apply run_keeps_open_clients|].
  intros prog. unfold main. simpl.
  destruct (make_admin email w) as [r w']. simpl in Hraise. by subst r.
Qed.

Lemma non_Exception_propagates_witness :
  is_Exception (mkExn false "KeyboardInterrupt") = false
  ∧ (make_admin "user@example.com" (sample_world interrupted)).1
    = Raise (mkExn false "KeyboardInterrupt")
  ∧ open_clients (make_admin "user@example.com" (sample_world interrupted)).2
    = 0%nat.
Proof.
  split; [reflexivity|].
  edestruct (non_Exception_propagates "user@example.com"
               (sample_world interrupted) (mkExn false "KeyboardInterrupt"))
    as (H1 & _ & H3 & _).
  { vm_compute. reflexivity. }
  { reflexivity. }
  exact (conj H1 H3).
Defined.
